(** * Rustodon simple test server: the route dispatcher of
    [simple_test_server.py], embedded and verified.

    The program is one [BaseHTTPRequestHandler] subclass, [TestHandler],
    whose [do_GET] and [do_POST] send status 200 and two headers and then
    choose a canned JSON document by a chain of tests on [self.path].

    Python strings are [string]; a request path is the request line's
    target decoded as ISO-8859-1, so each of its characters is one [ascii].
    A Python dict literal is an association list in insertion order, which
    is the order [json.dumps] prints.  The one impure call,
    [datetime.now().isoformat()], is an argument [now] of the handlers. *)

From Stdlib Require Import Bool Arith List Lia ZArith.
From Stdlib Require Import Strings.Ascii Strings.String.
Import ListNotations.

Set Warnings "-register-all".
Open Scope string_scope.

(** ** Python string operations used by the handler *)

(** [s.startswith(pre)] *)
Fixpoint startswith (s pre : string) {struct pre} : bool :=
  match pre with
  | EmptyString => true
  | String c pre' =>
      match s with
      | EmptyString => false
      | String d s' => Ascii.eqb d c && startswith s' pre'
      end
  end.

(** [s.endswith(suf)]: the tail of [s] of the length of [suf] is compared
    with [suf]; a suffix longer than [s] never matches. *)
Definition endswith (s suf : string) : bool :=
  (length suf <=? length s)%nat
  && (substring (length s - length suf) (length suf) s =? suf).

(** [sep.join(parts)] *)
Fixpoint join (sep : string) (parts : list string) : string :=
  match parts with
  | [] => ""
  | [x] => x
  | x :: rest => x ++ sep ++ join sep rest
  end.

(** [unit * n] for a string [unit] *)
Fixpoint str_mul (unit : string) (n : nat) : string :=
  match n with
  | O => ""
  | S m => unit ++ str_mul unit m
  end.

(** ** JSON values and [json.dumps] *)

(** The values the handler builds: [str], [None], [list] and [dict]. *)
Inductive json : Type :=
| JNull
| JStr (s : string)
| JList (items : list json)
| JDict (members : list (string * json)).

Definition dict : Type := list (string * json).

(** [list(d.keys())] *)
Definition keys (d : dict) : list string := map fst d.

(** [d.get(k)] *)
Fixpoint dict_get (k : string) (d : dict) : option json :=
  match d with
  | [] => None
  | (k', v) :: rest => if k' =? k then Some v else dict_get k rest
  end.

(** [{k': v for k', v in d.items() if k' != k}] *)
Definition dict_without (k : string) (d : dict) : dict :=
  filter (fun kv => negb (fst kv =? k)) d.

Definition hex_digit (n : nat) : ascii :=
  match n with
  | 0 => "0" | 1 => "1" | 2 => "2" | 3 => "3" | 4 => "4"
  | 5 => "5" | 6 => "6" | 7 => "7" | 8 => "8" | 9 => "9"
  | 10 => "a" | 11 => "b" | 12 => "c" | 13 => "d" | 14 => "e"
  | _ => "f"
  end%char.

(** ['\\u{0:04x}'.format(n)] for a code point below 256 *)
Definition u_escape (n : nat) : string :=
  "\u00" ++ String (hex_digit (n / 16)) (String (hex_digit (n mod 16)) "").

(** The replacement [json.encoder] makes for one character under
    [ensure_ascii]: the table [ESCAPE_DCT] for the backslash, the double
    quote and the control characters, [\uXXXX] for everything else outside
    the range from space to tilde, and the character itself inside it. *)
Definition escape_char (c : ascii) : string :=
  let n := nat_of_ascii c in
  if (n =? 92)%nat then "\\"
  else if (n =? 34)%nat then String "\" (String c "")
  else if (n =? 8)%nat then "\b"
  else if (n =? 12)%nat then "\f"
  else if (n =? 10)%nat then "\n"
  else if (n =? 13)%nat then "\r"
  else if (n =? 9)%nat then "\t"
  else if ((n <? 32) || (126 <? n))%nat then u_escape n
  else String c "".

Fixpoint escape_string (s : string) : string :=
  match s with
  | EmptyString => ""
  | String c s' => escape_char c ++ escape_string s'
  end.

Definition dquote : string := String "034" "".

(** [encode_basestring_ascii(s)] *)
Definition encode_basestring_ascii (s : string) : string :=
  dquote ++ escape_string s ++ dquote.

(** ['\n' + ' ' * (indent * level)] *)
Definition newline_indent (indent level : nat) : string :=
  String "010" (str_mul " " (indent * level)).

(** The encoder of [json.dumps(v, indent=indent)] at nesting depth
    [level]: an empty container prints closed on the spot; otherwise each
    item goes on a line of its own, one level deeper, items separated by a
    comma and a key from its value by a colon and a space. *)
Fixpoint iterencode (indent level : nat) (v : json) : string :=
  match v with
  | JNull => "null"
  | JStr s => encode_basestring_ascii s
  | JList [] => "[]"
  | JList items =>
      "[" ++ newline_indent indent (S level)
          ++ join ("," ++ newline_indent indent (S level))
                  (map (iterencode indent (S level)) items)
          ++ newline_indent indent level ++ "]"
  | JDict [] => "{}"
  | JDict members =>
      "{" ++ newline_indent indent (S level)
          ++ join ("," ++ newline_indent indent (S level))
                  (map (fun kv => encode_basestring_ascii (fst kv) ++ ": "
                                  ++ iterencode indent (S level) (snd kv))
                       members)
          ++ newline_indent indent level ++ "}"
  end.

Definition json_dumps (indent : nat) (v : json) : string :=
  iterencode indent 0 v.

(** [text.encode()]: UTF-8; a character below 128 is its own byte, a
    character from 128 to 255 becomes two bytes. *)
Definition utf8_char (c : ascii) : string :=
  let n := nat_of_ascii c in
  if (n <? 128)%nat then String c ""
  else String (ascii_of_nat (192 + n / 64))
         (String (ascii_of_nat (128 + n mod 64)) "").

Fixpoint encode (s : string) : string :=
  match s with
  | EmptyString => ""
  | String c s' => utf8_char c ++ encode s'
  end.

(** ** The request handler *)

Inductive method : Type := GET | POST.

(** What a [BaseHTTPRequestHandler] holds of one request and of the
    response written so far: [self.path], the raw request target with its
    query string as the library hands it over; the status lines sent; the
    headers [TestHandler] itself sent (the library adds its own Server and
    Date headers to every response, which are not recorded here); whether
    the header block was closed; and the bytes written to [self.wfile]. *)
Record TestHandler : Type := mkHandler {
  path : string;
  status_lines : list Z;
  headers : list (string * string);
  headers_ended : bool;
  wfile : string
}.

(** The handler as the server creates it for a request for [p]. *)
Definition new_handler (p : string) : TestHandler :=
  mkHandler p [] [] false "".

Definition send_response (code : Z) (self : TestHandler) : TestHandler :=
  mkHandler (path self) (status_lines self ++ [code]) (headers self)
            (headers_ended self) (wfile self).

Definition send_header (keyword value : string) (self : TestHandler)
  : TestHandler :=
  mkHandler (path self) (status_lines self)
            (headers self ++ [(keyword, value)])
            (headers_ended self) (wfile self).

Definition end_headers (self : TestHandler) : TestHandler :=
  mkHandler (path self) (status_lines self) (headers self) true
            (wfile self).

Definition wfile_write (data : string) (self : TestHandler) : TestHandler :=
  mkHandler (path self) (status_lines self) (headers self)
            (headers_ended self) (wfile self ++ data).

(** The value of the local [response] in [do_GET]. *)
Definition do_GET_response (now p : string) : dict :=
  if p =? "/health" then
    [("status", JStr "ok"); ("message", JStr "Health check passed");
     ("timestamp", JStr now)]
  else if p =? "/api/v1/instance" then
    [("version", JStr "1.0.0"); ("name", JStr "Rustodon Test Server");
     ("description", JStr "Test server for API validation")]
  else if p =? "/api/v1/timelines/public" then
    [("statuses", JList []); ("next", JNull); ("prev", JNull)]
  else if startswith p "/api/v1/accounts/" then
    [("id", JStr "1"); ("username", JStr "testuser");
     ("display_name", JStr "Test User");
     ("created_at", JStr "2025-01-01T00:00:00Z")]
  else if startswith p "/api/v1/search" then
    [("accounts", JList []); ("statuses", JList []); ("hashtags", JList [])]
  else
    [("message", JStr "Welcome to Rustodon Test Server");
     ("endpoints",
      JList [JStr "/health"; JStr "/api/v1/instance";
             JStr "/api/v1/timelines/public"; JStr "/api/v1/accounts/1";
             JStr "/api/v1/search?q=test"])].

(** The value of the local [response] in [do_POST]. *)
Definition do_POST_response (now p : string) : dict :=
  if p =? "/api/v1/auth/register" then
    [("token", JStr "test_token_123"); ("user_id", JStr "1");
     ("message", JStr "Registration successful")]
  else if p =? "/api/v1/auth/login" then
    [("token", JStr "test_token_123"); ("user_id", JStr "1");
     ("message", JStr "Login successful")]
  else if p =? "/api/v1/statuses" then
    [("id", JStr "1"); ("content", JStr "Test status");
     ("created_at", JStr now)]
  else if p =? "/api/v1/media" then
    [("id", JStr "1"); ("type", JStr "image");
     ("url", JStr "https://example.com/test.jpg")]
  else if p =? "/api/v1/notifications" then [("notifications", JList [])]
  else if endswith p "/follow" then [("message", JStr "Follow successful")]
  else if endswith p "/unfollow" then
    [("message", JStr "Unfollow successful")]
  else if endswith p "/favourite" then
    [("message", JStr "Favourite successful")]
  else if endswith p "/unfavourite" then
    [("message", JStr "Unfavourite successful")]
  else if endswith p "/reblog" then [("message", JStr "Reblog successful")]
  else if endswith p "/unreblog" then
    [("message", JStr "Unreblog successful")]
  else if p =? "/api/v1/lists" then [("lists", JList [])]
  else if p =? "/api/v1/conversations" then [("conversations", JList [])]
  else if p =? "/api/v1/bookmarks" then [("bookmarks", JList [])]
  else if p =? "/api/v1/mutes" then [("mutes", JList [])]
  else if p =? "/api/v1/blocks" then [("blocks", JList [])]
  else if p =? "/api/v1/reports" then [("reports", JList [])]
  else if p =? "/api/v1/filters" then [("filters", JList [])]
  else [("error", JStr "Endpoint not implemented"); ("path", JStr p)].

Definition do_GET (now : string) (self : TestHandler) : TestHandler :=
  let self := send_response 200 self in
  let self := send_header "Content-type" "application/json" self in
  let self := send_header "Access-Control-Allow-Origin" "*" self in
  let self := end_headers self in
  let response := do_GET_response now (path self) in
  wfile_write (encode (json_dumps 2 (JDict response))) self.

Definition do_POST (now : string) (self : TestHandler) : TestHandler :=
  let self := send_response 200 self in
  let self := send_header "Content-type" "application/json" self in
  let self := send_header "Access-Control-Allow-Origin" "*" self in
  let self := end_headers self in
  let response := do_POST_response now (path self) in
  wfile_write (encode (json_dumps 2 (JDict response))) self.

(** The server calls the method named after the request's command. *)
Definition handle (m : method) (now p : string) : TestHandler :=
  match m with
  | GET => do_GET now (new_handler p)
  | POST => do_POST now (new_handler p)
  end.

(** The [response] dict a request is answered with. *)
Definition response_of (m : method) (now p : string) : dict :=
  match m with
  | GET => do_GET_response now p
  | POST => do_POST_response now p
  end.

(** ** The dispatch table of the specification

    A route rule is a path predicate with the body it answers; rules are
    tried in order and the first whose predicate holds wins. *)

Inductive predicate : Type :=
| Exact (lit : string)
| Prefix (lit : string)
| Suffix (lit : string).

Definition matches (pr : predicate) (p : string) : bool :=
  match pr with
  | Exact lit => p =? lit
  | Prefix lit => startswith p lit
  | Suffix lit => endswith p lit
  end.

Record rule : Type := mkRule {
  rule_pred : predicate;
  rule_body : string -> dict
}.

Fixpoint first_match (rules : list rule) (fallback : string -> dict)
  (now p : string) : dict :=
  match rules with
  | [] => fallback p
  | r :: rest =>
      if matches (rule_pred r) p then rule_body r now
      else first_match rest fallback now p
  end.

(** No rule of the table matches [p]. *)
Definition unmatched (rules : list rule) (p : string) : bool :=
  forallb (fun r => negb (matches (rule_pred r) p)) rules.

(** The GET rules in the order the specification lists them. *)
Definition spec_GET_rules : list rule :=
  [ mkRule (Exact "/health")
      (fun now => [("status", JStr "ok");
                   ("message", JStr "Health check passed");
                   ("timestamp", JStr now)]);
    mkRule (Exact "/api/v1/instance")
      (fun _ => [("version", JStr "1.0.0");
                 ("name", JStr "Rustodon Test Server");
                 ("description", JStr "Test server for API validation")]);
    mkRule (Exact "/api/v1/timelines/public")
      (fun _ => [("statuses", JList []); ("next", JNull); ("prev", JNull)]);
    mkRule (Prefix "/api/v1/accounts/")
      (fun _ => [("id", JStr "1"); ("username", JStr "testuser");
                 ("display_name", JStr "Test User");
                 ("created_at", JStr "2025-01-01T00:00:00Z")]);
    mkRule (Prefix "/api/v1/search")
      (fun _ => [("accounts", JList []); ("statuses", JList []);
                 ("hashtags", JList [])]) ].

Definition welcome_payload : dict :=
  [("message", JStr "Welcome to Rustodon Test Server");
   ("endpoints",
    JList [JStr "/health"; JStr "/api/v1/instance";
           JStr "/api/v1/timelines/public"; JStr "/api/v1/accounts/1";
           JStr "/api/v1/search?q=test"])].

Definition spec_do_GET_response : string -> string -> dict :=
  first_match spec_GET_rules (fun _ => welcome_payload).

(** The POST rules in the order the specification lists them: the twelve
    exact paths, then the six suffixes. *)
Definition spec_POST_rules : list rule :=
  [ mkRule (Exact "/api/v1/auth/register")
      (fun _ => [("token", JStr "test_token_123"); ("user_id", JStr "1");
                 ("message", JStr "Registration successful")]);
    mkRule (Exact "/api/v1/auth/login")
      (fun _ => [("token", JStr "test_token_123"); ("user_id", JStr "1");
                 ("message", JStr "Login successful")]);
    mkRule (Exact "/api/v1/statuses")
      (fun now => [("id", JStr "1"); ("content", JStr "Test status");
                   ("created_at", JStr now)]);
    mkRule (Exact "/api/v1/media")
      (fun _ => [("id", JStr "1"); ("type", JStr "image");
                 ("url", JStr "https://example.com/test.jpg")]);
    mkRule (Exact "/api/v1/notifications")
      (fun _ => [("notifications", JList [])]);
    mkRule (Exact "/api/v1/lists") (fun _ => [("lists", JList [])]);
    mkRule (Exact "/api/v1/conversations")
      (fun _ => [("conversations", JList [])]);
    mkRule (Exact "/api/v1/bookmarks") (fun _ => [("bookmarks", JList [])]);
    mkRule (Exact "/api/v1/mutes") (fun _ => [("mutes", JList [])]);
    mkRule (Exact "/api/v1/blocks") (fun _ => [("blocks", JList [])]);
    mkRule (Exact "/api/v1/reports") (fun _ => [("reports", JList [])]);
    mkRule (Exact "/api/v1/filters") (fun _ => [("filters", JList [])]);
    mkRule (Suffix "/follow")
      (fun _ => [("message", JStr "Follow successful")]);
    mkRule (Suffix "/unfollow")
      (fun _ => [("message", JStr "Unfollow successful")]);
    mkRule (Suffix "/favourite")
      (fun _ => [("message", JStr "Favourite successful")]);
    mkRule (Suffix "/unfavourite")
      (fun _ => [("message", JStr "Unfavourite successful")]);
    mkRule (Suffix "/reblog")
      (fun _ => [("message", JStr "Reblog successful")]);
    mkRule (Suffix "/unreblog")
      (fun _ => [("message", JStr "Unreblog successful")]) ].

Definition not_implemented (p : string) : dict :=
  [("error", JStr "Endpoint not implemented"); ("path", JStr p)].

Definition spec_do_POST_response : string -> string -> dict :=
  first_match spec_POST_rules not_implemented.

(** Every character is below 128. *)
Fixpoint is_ascii (s : string) : bool :=
  match s with
  | EmptyString => true
  | String c s' => (nat_of_ascii c <? 128)%nat && is_ascii s'
  end.

(** Every character of [s] passes the test [f]. *)
Fixpoint all_chars (f : ascii -> bool) (s : string) : bool :=
  match s with
  | EmptyString => true
  | String c s' => f c && all_chars f s'
  end.

(** A printable ASCII character, from space to tilde. *)
Definition printable (c : ascii) : bool :=
  ((32 <=? nat_of_ascii c) && (nat_of_ascii c <=? 126))%nat.

(** A printable character or the line feed [json.dumps] puts between
    items. *)
Definition printable_or_newline (c : ascii) : bool :=
  printable c || (nat_of_ascii c =? 10)%nat.

(** The value of a lower-case hexadecimal digit. *)
Definition hex_value (c : ascii) : option nat :=
  let n := nat_of_ascii c in
  if ((48 <=? n) && (n <=? 57))%nat then Some (n - 48)
  else if ((97 <=? n) && (n <=? 102))%nat then Some (n - 87)
  else None.

(** Reading back what [encode_basestring_ascii] wrote, from just after the
    opening quote: the characters up to the first quote that no backslash
    precedes, each escape replaced by the character it stands for, and the
    text left after that quote.  It is the inverse by which the encoder is
    shown to lose nothing; the program itself never reads JSON. *)
Fixpoint scan_string (s : string) : option (string * string) :=
  let keep (c : ascii) (r : option (string * string)) :=
    match r with
    | Some (t, rest) => Some (String c t, rest)
    | None => None
    end in
  match s with
  | EmptyString => None
  | String c s1 =>
      if (nat_of_ascii c =? 34)%nat then Some ("", s1)
      else if (nat_of_ascii c =? 92)%nat then
        match s1 with
        | EmptyString => None
        | String e s2 =>
            match nat_of_ascii e with
            | 34 | 92 => keep e (scan_string s2)
            | 98 => keep "008"%char (scan_string s2)
            | 102 => keep "012"%char (scan_string s2)
            | 110 => keep "010"%char (scan_string s2)
            | 114 => keep "013"%char (scan_string s2)
            | 116 => keep "009"%char (scan_string s2)
            | 117 =>
                match s2 with
                | String h1 (String h2 (String h3 (String h4 s6))) =>
                    match hex_value h1, hex_value h2,
                          hex_value h3, hex_value h4 with
                    | Some 0, Some 0, Some a, Some b =>
                        keep (ascii_of_nat (16 * a + b)) (scan_string s6)
                    | _, _, _, _ => None
                    end
                | _ => None
                end
            | _ => None
            end
        end
      else keep c (scan_string s1)
  end.

(** The literal a path predicate compares with. *)
Definition pred_literal (pr : predicate) : string :=
  match pr with
  | Exact lit | Prefix lit | Suffix lit => lit
  end.

(** * Properties *)

(** ** Strings *)

Section StringFacts.

Lemma length_app (s t : string) : length (s ++ t) = length s + length t.
Proof. induction s as [|c s IH]; simpl; [reflexivity | now rewrite IH]. Qed.

Lemma substring_all (s : string) : substring 0 (length s) s = s.
Proof. induction s as [|c s IH]; simpl; [reflexivity | now rewrite IH]. Qed.

Lemma substring_skip (pre t : string) (k n : nat) :
  substring (length pre + k) n (pre ++ t) = substring k n t.
Proof. induction pre as [|c pre IH]; simpl; [reflexivity | exact IH]. Qed.

(** A substring that reaches the end of the string is a tail of it. *)
Lemma substring_tail (s : string) (k : nat) :
  k <= length s ->
  exists pre, s = pre ++ substring k (length s - k) s /\ length pre = k.
Proof.
  revert k; induction s as [|c s IH]; intros k Hk.
  - exists ""; simpl in *. destruct k; [split; reflexivity | lia].
  - destruct k as [|k].
    + exists ""; split; [|reflexivity].
      rewrite Nat.sub_0_r, substring_all. reflexivity.
    + simpl in Hk. destruct (IH k) as [pre [E L]]; [lia|].
      exists (String c pre); simpl; split; [now rewrite <- E | now rewrite L].
Qed.

Lemma startswith_app (pre t : string) : startswith (pre ++ t) pre = true.
Proof.
  induction pre as [|c pre IH]; simpl; [reflexivity|].
  now rewrite Ascii.eqb_refl, IH.
Qed.

(** [startswith] is the prefix relation. *)
Lemma startswith_iff (s pre : string) :
  startswith s pre = true <-> exists t, s = pre ++ t.
Proof.
  split.
  - revert s; induction pre as [|c pre IH]; intros s H.
    + now exists s.
    + destruct s as [|d s]; simpl in H; [discriminate|].
      apply andb_true_iff in H as [Hc Hs].
      apply Ascii.eqb_eq in Hc; subst d.
      destruct (IH _ Hs) as [t ->]. now exists t.
  - intros [t ->]. apply startswith_app.
Qed.

Lemma endswith_app (pre suf : string) : endswith (pre ++ suf) suf = true.
Proof.
  unfold endswith. rewrite length_app.
  replace (length pre + length suf - length suf) with (length pre + 0) by lia.
  rewrite substring_skip, substring_all, String.eqb_refl.
  apply andb_true_iff; split; [apply Nat.leb_le; lia | reflexivity].
Qed.

(** [endswith] is the suffix relation. *)
Lemma endswith_iff (s suf : string) :
  endswith s suf = true <-> exists pre, s = pre ++ suf.
Proof.
  split.
  - unfold endswith; intros H.
    apply andb_true_iff in H as [Hl He].
    apply Nat.leb_le in Hl. apply String.eqb_eq in He.
    destruct (substring_tail s (length s - length suf)) as [pre [E _]];
      [lia|].
    replace (length s - (length s - length suf)) with (length suf) in E
      by lia.
    rewrite He in E. now exists pre.
  - intros [pre ->]. apply endswith_app.
Qed.

(** Of two suffixes of one string the shorter is a suffix of the
    longer. *)
Lemma suffixes_nest (a b u v : string) :
  a ++ u = b ++ v -> length v <= length u -> exists c, u = c ++ v.
Proof.
  revert b; induction a as [|x a IH]; intros b E L; simpl in E.
  - now exists b.
  - destruct b as [|y b]; simpl in E.
    + subst v. simpl in L. rewrite length_app in L. lia.
    + injection E as _ E. exact (IH b E L).
Qed.

Lemma endswith_nest (s u v : string) :
  endswith s u = true -> endswith s v = true ->
  length v <= length u -> endswith u v = true.
Proof.
  intros Hu Hv L.
  apply endswith_iff in Hu as [a ->]. apply endswith_iff in Hv as [b E].
  destruct (suffixes_nest a b u v E L) as [c ->]. apply endswith_app.
Qed.

(** A path built on the literal [lit] ends with [suf] only if [lit] and
    [suf] are nested suffixes. *)
Lemma endswith_app_false (pre lit suf : string) :
  endswith lit suf = false -> endswith suf lit = false ->
  endswith (pre ++ lit) suf = false.
Proof.
  intros H1 H2. destruct (endswith (pre ++ lit) suf) eqn:E; [|reflexivity].
  pose proof (endswith_app pre lit) as E'.
  destruct (Nat.le_ge_cases (length suf) (length lit)) as [L|L].
  - now rewrite (endswith_nest _ _ _ E' E L) in H1.
  - now rewrite (endswith_nest _ _ _ E E' L) in H2.
Qed.

(** A path built on [lit] is no literal that does not end with [lit]. *)
Lemma eqb_app_false (pre lit e : string) :
  endswith e lit = false -> (pre ++ lit =? e) = false.
Proof.
  intros H. apply String.eqb_neq. intros <-.
  now rewrite endswith_app in H.
Qed.

End StringFacts.

(** ** The JSON text *)

Section JsonInduction.

Variable P : json -> Prop.
Hypothesis P_null : P JNull.
Hypothesis P_str : forall s, P (JStr s).
Hypothesis P_list : forall items, Forall P items -> P (JList items).
Hypothesis P_dict :
  forall members, Forall (fun kv => P (snd kv)) members -> P (JDict members).

(** Induction on a JSON value, with the hypothesis for every item of a
    list and every value of a dict. *)
Lemma json_nested_ind : forall v, P v.
Proof.
  fix IH 1. intros [|s|items|members].
  - exact P_null.
  - apply P_str.
  - apply P_list. induction items as [|x items IHitems]; constructor.
    + apply IH.
    + exact IHitems.
  - apply P_dict. induction members as [|[k x] members IHm]; constructor.
    + apply IH.
    + exact IHm.
Qed.

End JsonInduction.

Lemma is_ascii_app (s t : string) :
  is_ascii (s ++ t) = is_ascii s && is_ascii t.
Proof.
  induction s as [|c s IH]; simpl; [reflexivity|].
  now rewrite IH, andb_assoc.
Qed.

Lemma escape_char_is_ascii (c : ascii) : is_ascii (escape_char c) = true.
Proof. destruct c as [[] [] [] [] [] [] [] []]; reflexivity. Qed.

Lemma escape_string_is_ascii (s : string) :
  is_ascii (escape_string s) = true.
Proof.
  induction s as [|c s IH]; simpl; [reflexivity|].
  now rewrite is_ascii_app, escape_char_is_ascii, IH.
Qed.

Lemma encode_basestring_is_ascii (s : string) :
  is_ascii (encode_basestring_ascii s) = true.
Proof.
  unfold encode_basestring_ascii.
  now rewrite !is_ascii_app, escape_string_is_ascii.
Qed.

Lemma newline_indent_is_ascii (indent level : nat) :
  is_ascii (newline_indent indent level) = true.
Proof.
  unfold newline_indent. generalize (indent * level) as n.
  induction n as [|n IH]; [reflexivity | exact IH].
Qed.

Lemma join_is_ascii (sep : string) (parts : list string) :
  is_ascii sep = true -> Forall (fun x => is_ascii x = true) parts ->
  is_ascii (join sep parts) = true.
Proof.
  intros Hsep H. induction H as [|x parts Hx H IH]; [reflexivity|].
  destruct parts as [|y parts]; [exact Hx|].
  change (is_ascii (x ++ sep ++ join sep (y :: parts)) = true).
  now rewrite !is_ascii_app, Hx, Hsep, IH.
Qed.

(** Under [ensure_ascii] the text [json.dumps] makes has no character
    above 127. *)
Lemma iterencode_is_ascii (indent : nat) (v : json) :
  forall level, is_ascii (iterencode indent level v) = true.
Proof.
  induction v as [|s|items IH|members IH] using json_nested_ind;
    intros level.
  - reflexivity.
  - apply encode_basestring_is_ascii.
  - destruct items as [|x items]; [reflexivity|].
    cbn [iterencode]. rewrite !is_ascii_app, !newline_indent_is_ascii.
    rewrite join_is_ascii; [reflexivity | |].
    + now rewrite is_ascii_app, newline_indent_is_ascii.
    + apply Forall_map. revert IH. apply Forall_impl. auto.
  - destruct members as [|kv members]; [reflexivity|].
    cbn [iterencode]. rewrite !is_ascii_app, !newline_indent_is_ascii.
    rewrite join_is_ascii; [reflexivity | |].
    + now rewrite is_ascii_app, newline_indent_is_ascii.
    + apply Forall_map. revert IH. apply Forall_impl.
      intros [k x] Hx. cbn [fst snd].
      now rewrite !is_ascii_app, encode_basestring_is_ascii, Hx.
Qed.

(** UTF-8 leaves a text without characters above 127 as it is. *)
Lemma encode_is_ascii (s : string) : is_ascii s = true -> encode s = s.
Proof.
  induction s as [|c s IH]; simpl; intros H; [reflexivity|].
  apply andb_true_iff in H as [Hc Hs]. unfold utf8_char.
  rewrite Hc, IH by exact Hs. reflexivity.
Qed.

Lemma encode_json_dumps (indent : nat) (v : json) :
  encode (json_dumps indent v) = json_dumps indent v.
Proof. apply encode_is_ascii, iterencode_is_ascii. Qed.

Example spec_rule_counts :
  List.length spec_GET_rules = 5 /\ List.length spec_POST_rules = 18.
Proof. split; reflexivity. Qed.

(** The text of the welcome payload, line by line. *)
Example json_dumps_welcome :
  json_dumps 2 (JDict welcome_payload)
  = join (String "010" "")
      [ "{";
        "  " ++ dquote ++ "message" ++ dquote ++ ": "
             ++ dquote ++ "Welcome to Rustodon Test Server" ++ dquote ++ ",";
        "  " ++ dquote ++ "endpoints" ++ dquote ++ ": [";
        "    " ++ dquote ++ "/health" ++ dquote ++ ",";
        "    " ++ dquote ++ "/api/v1/instance" ++ dquote ++ ",";
        "    " ++ dquote ++ "/api/v1/timelines/public" ++ dquote ++ ",";
        "    " ++ dquote ++ "/api/v1/accounts/1" ++ dquote ++ ",";
        "    " ++ dquote ++ "/api/v1/search?q=test" ++ dquote;
        "  ]";
        "}" ].
Proof. reflexivity. Qed.

(** ** The dispatcher *)

Ltac skip_exact := rewrite eqb_app_false by reflexivity.

Ltac skip_suffix suf :=
  match goal with
  | |- context [endswith (?pre ++ ?lit) suf] =>
      rewrite (endswith_app_false pre lit suf) by reflexivity
  end.

Ltac split_exact p :=
  repeat match goal with
    | |- context [String.eqb p ?lit] =>
        destruct (String.eqb_spec p lit) as [->|?]; [reflexivity|]
    end.

(** The POST chain tests seven exact paths after the suffixes; none of
    them ends with one of the suffixes, so testing them first changes
    nothing. *)
Lemma do_POST_response_table (now p : string) :
  do_POST_response now p = first_match spec_POST_rules not_implemented now p.
Proof.
  unfold do_POST_response, spec_POST_rules.
  cbn [first_match matches rule_pred rule_body not_implemented].
  split_exact p. reflexivity.
Qed.

(** C2: for every POST path the handler's chain (five exact paths, six
    suffixes, seven exact paths, fallback) answers as the rule table of the
    specification does (twelve exact paths, six suffixes, fallback, first
    match wins). *)
Theorem do_POST_refines_spec (now p : string) :
  do_POST_response now p = spec_do_POST_response now p.
Proof. unfold spec_do_POST_response. apply do_POST_response_table. Qed.

(** The GET chain is the GET table of the specification. *)
Lemma do_GET_refines_spec (now p : string) :
  do_GET_response now p = spec_do_GET_response now p.
Proof. reflexivity. Qed.

(** What [unmatched] says of a table, one rule at a time. *)
Lemma unmatched_cons (r : rule) (rules : list rule) (p : string) :
  unmatched (r :: rules) p = true <->
  matches (rule_pred r) p = false /\ unmatched rules p = true.
Proof.
  unfold unmatched; simpl.
  rewrite andb_true_iff, negb_true_iff. reflexivity.
Qed.

Lemma first_match_unmatched (rules : list rule) (fb : string -> dict)
  (now p : string) :
  unmatched rules p = true -> first_match rules fb now p = fb p.
Proof.
  induction rules as [|r rules IH]; intros H; [reflexivity|].
  apply unmatched_cons in H as [Hr H]. simpl. rewrite Hr. auto.
Qed.

(** The bytes written are the text of the [response] dict. *)
Lemma handle_wfile (m : method) (now p : string) :
  wfile (handle m now p) = json_dumps 2 (JDict (response_of m now p)).
Proof.
  destruct m; cbn -[json_dumps encode do_GET_response do_POST_response];
    apply encode_json_dumps.
Qed.

(** C1: whatever the method and the path, the handler sends the one status
    line 200, sends the headers Content-type: application/json and
    Access-Control-Allow-Origin: *, closes the header block and writes the
    JSON text of a dict; no status other than 200 is ever sent. *)
Theorem handle_always_200_json (m : method) (now p : string) :
  status_lines (handle m now p) = [200%Z] /\
  In ("Content-type", "application/json") (headers (handle m now p)) /\
  In ("Access-Control-Allow-Origin", "*") (headers (handle m now p)) /\
  headers_ended (handle m now p) = true /\
  wfile (handle m now p) = json_dumps 2 (JDict (response_of m now p)) /\
  (forall code, In code (status_lines (handle m now p)) -> code = 200%Z).
Proof.
  destruct m; cbn -[json_dumps encode do_GET_response do_POST_response];
    rewrite encode_json_dumps;
    (repeat split; auto; try (intros code [<-|[]]; reflexivity)).
Qed.

Lemma handle_always_200_json_witness :
  status_lines (handle POST "2025-06-01T12:00:00" "/unknown/path") = [200%Z]
  /\ wfile (handle POST "2025-06-01T12:00:00" "/unknown/path")
     = json_dumps 2 (JDict [("error", JStr "Endpoint not implemented");
                            ("path", JStr "/unknown/path")])
  /\ 200%Z = 200%Z.
Proof.
  destruct (handle_always_200_json POST "2025-06-01T12:00:00" "/unknown/path")
    as (Hstatus & _ & _ & _ & Hbody & Honly).
  split; [exact Hstatus | split; [exact Hbody|]].
  apply Honly. left. reflexivity.
Defined.

(** C3: the GET rules answer with exactly the documented keys, and the
    chain tries them in the documented order, first match winning. *)
Theorem do_GET_key_sets (now : string) :
  keys (do_GET_response now "/health") = ["status"; "message"; "timestamp"] /\
  keys (do_GET_response now "/api/v1/instance")
  = ["version"; "name"; "description"] /\
  keys (do_GET_response now "/api/v1/timelines/public")
  = ["statuses"; "next"; "prev"] /\
  (forall p, startswith p "/api/v1/accounts/" = true ->
     keys (do_GET_response now p)
     = ["id"; "username"; "display_name"; "created_at"]) /\
  (forall p, startswith p "/api/v1/search" = true ->
     keys (do_GET_response now p) = ["accounts"; "statuses"; "hashtags"]) /\
  (forall p, do_GET_response now p
             = first_match spec_GET_rules (fun _ => welcome_payload) now p).
Proof.
  repeat split; try reflexivity.
  - intros p H. apply startswith_iff in H as [t ->]. reflexivity.
  - intros p H. apply startswith_iff in H as [t ->]. reflexivity.
Qed.

Lemma do_GET_key_sets_witness :
  keys (do_GET_response "2025-06-01T12:00:00" "/api/v1/accounts/123")
  = ["id"; "username"; "display_name"; "created_at"] /\
  keys (do_GET_response "2025-06-01T12:00:00" "/api/v1/search?q=test")
  = ["accounts"; "statuses"; "hashtags"].
Proof.
  destruct (do_GET_key_sets "2025-06-01T12:00:00")
    as (_ & _ & _ & Hacc & Hsearch & _).
  split; [apply Hacc | apply Hsearch]; reflexivity.
Defined.

(** C4: a GET path no GET rule matches is answered with the welcome
    payload, whose keys are message and endpoints, the latter the list of
    the five endpoint strings; a POST path no POST rule matches is answered
    with the error payload carrying the path as received; the two payloads
    have different keys. *)
Theorem fallback_shapes (now p : string) :
  (unmatched spec_GET_rules p = true ->
     do_GET_response now p
     = [("message", JStr "Welcome to Rustodon Test Server");
        ("endpoints",
         JList [JStr "/health"; JStr "/api/v1/instance";
                JStr "/api/v1/timelines/public"; JStr "/api/v1/accounts/1";
                JStr "/api/v1/search?q=test"])] /\
     keys (do_GET_response now p) = ["message"; "endpoints"]) /\
  (unmatched spec_POST_rules p = true ->
     do_POST_response now p
     = [("error", JStr "Endpoint not implemented"); ("path", JStr p)]) /\
  (forall q, unmatched spec_GET_rules p = true ->
             unmatched spec_POST_rules q = true ->
             keys (do_GET_response now p) <> keys (do_POST_response now q)).
Proof.
  assert (G : unmatched spec_GET_rules p = true ->
              do_GET_response now p = welcome_payload).
  { intros H. rewrite do_GET_refines_spec.
    apply (first_match_unmatched _ (fun _ => welcome_payload)), H. }
  assert (P : forall q, unmatched spec_POST_rules q = true ->
                        do_POST_response now q = not_implemented q).
  { intros q H. rewrite do_POST_response_table.
    apply first_match_unmatched, H. }
  split; [|split].
  - intros H. rewrite (G H). split; reflexivity.
  - intros H. rewrite (P p H). reflexivity.
  - intros q Hp Hq. rewrite (G Hp), (P q Hq). discriminate.
Qed.

Lemma fallback_shapes_witness :
  do_GET_response "2025-06-01T12:00:00" "/unknown/path" = welcome_payload /\
  do_POST_response "2025-06-01T12:00:00" "/unknown/path"
  = [("error", JStr "Endpoint not implemented");
     ("path", JStr "/unknown/path")] /\
  keys (do_GET_response "2025-06-01T12:00:00" "/unknown/path")
  <> keys (do_POST_response "2025-06-01T12:00:00" "/unknown/path").
Proof.
  destruct (fallback_shapes "2025-06-01T12:00:00" "/unknown/path")
    as (Hget & Hpost & Hdiff).
  split; [|split].
  - apply Hget. reflexivity.
  - apply Hpost. reflexivity.
  - apply Hdiff; reflexivity.
Defined.

(** C5: a POST to any path that ends with /follow, whatever comes before
    it, the empty string included, is answered with exactly
    {"message": "Follow successful"}. *)
Theorem post_follow (now pre : string) :
  do_POST_response now (pre ++ "/follow")
  = [("message", JStr "Follow successful")].
Proof.
  unfold do_POST_response. do 5 skip_exact.
  rewrite endswith_app. reflexivity.
Qed.

(** C6: GET answers for two paths under /api/v1/accounts/ are the same and
    are the fixed account payload, whatever the suffixes (and the times of
    the two requests). *)
Theorem get_accounts_ignores_suffix (now1 now2 s t : string) :
  do_GET_response now1 ("/api/v1/accounts/" ++ s)
  = do_GET_response now2 ("/api/v1/accounts/" ++ t) /\
  do_GET_response now1 ("/api/v1/accounts/" ++ s)
  = [("id", JStr "1"); ("username", JStr "testuser");
     ("display_name", JStr "Test User");
     ("created_at", JStr "2025-01-01T00:00:00Z")].
Proof. split; reflexivity. Qed.

(** C7: GET /api/v1/search?q=test, and GET of any raw path that begins
    with /api/v1/search, is answered with exactly
    {"accounts": [], "statuses": [], "hashtags": []}. *)
Theorem get_search (now : string) :
  do_GET_response now "/api/v1/search?q=test"
  = [("accounts", JList []); ("statuses", JList []); ("hashtags", JList [])]
  /\
  forall rest,
    do_GET_response now ("/api/v1/search" ++ rest)
    = [("accounts", JList []); ("statuses", JList []);
       ("hashtags", JList [])] /\
    wfile (handle GET now ("/api/v1/search" ++ rest))
    = json_dumps 2 (JDict [("accounts", JList []); ("statuses", JList []);
                           ("hashtags", JList [])]).
Proof.
  split; [reflexivity|]. intros rest. split; [reflexivity|].
  rewrite handle_wfile. reflexivity.
Qed.

(** C9: the three exact GET paths followed by anything non-empty, a query
    string in particular, match no rule and get the welcome payload. *)
Theorem get_exact_with_query_falls_back (now q : string) :
  q <> "" ->
  do_GET_response now ("/health" ++ q) = welcome_payload /\
  do_GET_response now ("/api/v1/instance" ++ q) = welcome_payload /\
  do_GET_response now ("/api/v1/timelines/public" ++ q) = welcome_payload.
Proof.
  intros H. destruct q as [|c q]; [contradiction|].
  repeat split; reflexivity.
Qed.

Lemma get_exact_with_query_falls_back_witness :
  do_GET_response "2025-06-01T12:00:00" "/health?x=1" = welcome_payload /\
  do_GET_response "2025-06-01T12:00:00" "/api/v1/instance?x=1"
  = welcome_payload /\
  do_GET_response "2025-06-01T12:00:00" "/api/v1/timelines/public?x=1"
  = welcome_payload.
Proof.
  apply (get_exact_with_query_falls_back "2025-06-01T12:00:00" "?x=1").
  discriminate.
Defined.

(** C10: POST paths ending in /unfollow, /unfavourite and /unreblog get
    their own messages: such a path does not end with /follow, /favourite
    or /reblog, so the earlier suffix rules do not take it. *)
Theorem post_un_suffixes (now pre : string) :
  do_POST_response now (pre ++ "/unfollow")
  = [("message", JStr "Unfollow successful")] /\
  do_POST_response now (pre ++ "/unfavourite")
  = [("message", JStr "Unfavourite successful")] /\
  do_POST_response now (pre ++ "/unreblog")
  = [("message", JStr "Unreblog successful")] /\
  endswith (pre ++ "/unfollow") "/follow" = false /\
  endswith (pre ++ "/unfavourite") "/favourite" = false /\
  endswith (pre ++ "/unreblog") "/reblog" = false.
Proof.
  repeat split; try (apply endswith_app_false; reflexivity);
    unfold do_POST_response; do 5 skip_exact.
  - skip_suffix "/follow". rewrite endswith_app. reflexivity.
  - skip_suffix "/follow". skip_suffix "/unfollow". skip_suffix "/favourite".
    rewrite endswith_app. reflexivity.
  - skip_suffix "/follow". skip_suffix "/unfollow". skip_suffix "/favourite".
    skip_suffix "/unfavourite". skip_suffix "/reblog".
    rewrite endswith_app. reflexivity.
Qed.

(** C8: the answer is a function of method, path and the time read; for
    every GET path but /health and every POST path but /api/v1/statuses the
    whole answer is the same at all times; at those two paths the time is
    the value of the one field timestamp, resp. created_at, and the rest of
    the body is the same at all times. *)
Theorem dispatch_deterministic (m : method) (p : string) :
  (forall now1 now2, now1 = now2 -> handle m now1 p = handle m now2 p) /\
  (forall now1 now2, p <> "/health" -> handle GET now1 p = handle GET now2 p)
  /\
  (forall now1 now2, p <> "/api/v1/statuses" ->
     handle POST now1 p = handle POST now2 p) /\
  (forall now1 now2,
     dict_without "timestamp" (do_GET_response now1 "/health")
     = dict_without "timestamp" (do_GET_response now2 "/health")) /\
  (forall now1 now2,
     dict_without "created_at" (do_POST_response now1 "/api/v1/statuses")
     = dict_without "created_at" (do_POST_response now2 "/api/v1/statuses"))
  /\
  (forall now,
     dict_get "timestamp" (do_GET_response now "/health") = Some (JStr now) /\
     dict_get "created_at" (do_POST_response now "/api/v1/statuses")
     = Some (JStr now)).
Proof.
  repeat split; try reflexivity.
  - intros now1 now2 ->. reflexivity.
  - intros now1 now2 H.
    unfold handle, do_GET; cbn [path new_handler send_response send_header
                                end_headers].
    f_equal. f_equal. f_equal. f_equal.
    unfold do_GET_response.
    destruct (String.eqb_spec p "/health"); [contradiction | reflexivity].
  - intros now1 now2 H.
    unfold handle, do_POST; cbn [path new_handler send_response send_header
                                 end_headers].
    f_equal. f_equal. f_equal. f_equal.
    unfold do_POST_response.
    destruct (String.eqb_spec p "/api/v1/statuses");
      [contradiction | reflexivity].
Qed.

Lemma dispatch_deterministic_witness :
  handle GET "2025-06-01T12:00:00" "/api/v1/instance"
  = handle GET "2025-06-01T12:00:00" "/api/v1/instance" /\
  handle GET "2025-06-01T12:00:00" "/api/v1/instance"
  = handle GET "2031-01-01T00:00:00" "/api/v1/instance" /\
  handle POST "2025-06-01T12:00:00" "/api/v1/instance"
  = handle POST "2031-01-01T00:00:00" "/api/v1/instance".
Proof.
  destruct (dispatch_deterministic GET "/api/v1/instance")
    as (Hsame & Hget & Hpost & _).
  split; [|split].
  - apply Hsame. reflexivity.
  - apply Hget. discriminate.
  - apply Hpost. discriminate.
Defined.


(** * Further properties of the handler *)

(** ** What the body is made of *)

Lemma all_chars_app (f : ascii -> bool) (s t : string) :
  all_chars f (s ++ t) = all_chars f s && all_chars f t.
Proof.
  induction s as [|c s IH]; simpl; [reflexivity|].
  now rewrite IH, andb_assoc.
Qed.

Lemma all_chars_weaken (f g : ascii -> bool) (s : string) :
  (forall c, f c = true -> g c = true) ->
  all_chars f s = true -> all_chars g s = true.
Proof.
  intros Hfg. induction s as [|c s IH]; simpl; [reflexivity|].
  intros H. apply andb_true_iff in H as [Hc Hs].
  now rewrite (Hfg c Hc), IH.
Qed.

Lemma escape_char_printable (c : ascii) :
  all_chars printable (escape_char c) = true.
Proof. destruct c as [[] [] [] [] [] [] [] []]; reflexivity. Qed.

(** Whatever the string, its JSON form is quotes, backslashes, letters,
    digits and other printable characters only. *)
Lemma encode_basestring_printable (s : string) :
  all_chars printable (encode_basestring_ascii s) = true.
Proof.
  unfold encode_basestring_ascii. rewrite !all_chars_app.
  replace (all_chars printable (escape_string s)) with true; [reflexivity|].
  symmetry. induction s as [|c s IH]; simpl; [reflexivity|].
  now rewrite all_chars_app, escape_char_printable, IH.
Qed.

Lemma newline_indent_body (indent level : nat) :
  all_chars printable_or_newline (newline_indent indent level) = true.
Proof.
  unfold newline_indent. generalize (indent * level) as n.
  induction n as [|n IH]; [reflexivity | exact IH].
Qed.

Lemma join_all_chars (f : ascii -> bool) (sep : string)
  (parts : list string) :
  all_chars f sep = true -> Forall (fun x => all_chars f x = true) parts ->
  all_chars f (join sep parts) = true.
Proof.
  intros Hsep H. induction H as [|x parts Hx H IH]; [reflexivity|].
  destruct parts as [|y parts]; [exact Hx|].
  change (all_chars f (x ++ sep ++ join sep (y :: parts)) = true).
  now rewrite !all_chars_app, Hx, Hsep, IH.
Qed.

Lemma encode_basestring_body (s : string) :
  all_chars printable_or_newline (encode_basestring_ascii s) = true.
Proof.
  apply (all_chars_weaken printable); [|apply encode_basestring_printable].
  intros c H. unfold printable_or_newline. now rewrite H.
Qed.

Lemma iterencode_body (indent : nat) (v : json) :
  forall level,
    all_chars printable_or_newline (iterencode indent level v) = true.
Proof.
  induction v as [|s|items IH|members IH] using json_nested_ind;
    intros level.
  - reflexivity.
  - apply encode_basestring_body.
  - destruct items as [|x items]; [reflexivity|].
    cbn [iterencode]. rewrite !all_chars_app, !newline_indent_body.
    rewrite join_all_chars; [reflexivity | |].
    + now rewrite all_chars_app, newline_indent_body.
    + apply Forall_map. revert IH. apply Forall_impl. auto.
  - destruct members as [|kv members]; [reflexivity|].
    cbn [iterencode]. rewrite !all_chars_app, !newline_indent_body.
    rewrite join_all_chars; [reflexivity | |].
    + now rewrite all_chars_app, newline_indent_body.
    + apply Forall_map. revert IH. apply Forall_impl.
      intros [k x] Hx. cbn [fst snd].
      now rewrite !all_chars_app, encode_basestring_body, Hx.
Qed.

(** X1: whatever the method, the path and the time string, every byte of
    the body written is a printable ASCII character or a line feed: bytes
    of the path outside that range reach the client only as escapes. *)
Theorem body_bytes_printable (m : method) (now p : string) :
  all_chars printable_or_newline (wfile (handle m now p)) = true.
Proof. rewrite handle_wfile. apply iterencode_body. Qed.

(** ** The escaped string can be read back *)

Lemma string_app_assoc (s t u : string) : (s ++ t) ++ u = s ++ t ++ u.
Proof.
  induction s as [|c s IH]; [reflexivity|].
  cbn [append]. now rewrite IH.
Qed.

Lemma scan_escape_char (c : ascii) (x : string) :
  scan_string (escape_char c ++ x)
  = match scan_string x with
    | Some (t, rest) => Some (String c t, rest)
    | None => None
    end.
Proof. destruct c as [[] [] [] [] [] [] [] []]; reflexivity. Qed.

(** Reading an escaped string stops at the quote the encoder closed it
    with and gives the string back, whatever text follows. *)
Lemma scan_escape_string (s rest : string) :
  scan_string (escape_string s ++ dquote ++ rest) = Some (s, rest).
Proof.
  induction s as [|c s IH]; [reflexivity|].
  cbn [escape_string].
  now rewrite string_app_assoc, scan_escape_char, IH.
Qed.

Lemma escaped_equal (s t rest1 rest2 : string) :
  escape_string s ++ dquote ++ rest1 = escape_string t ++ dquote ++ rest2 ->
  s = t /\ rest1 = rest2.
Proof.
  intros H. apply (f_equal scan_string) in H.
  rewrite !scan_escape_string in H. injection H as -> ->. now split.
Qed.

(** X2: the JSON form of a string is self-delimiting.  If two escaped
    strings, each closed by its quote and followed by any text, are the
    same text, then the strings are equal and so are the texts that
    follow: no content of a path can close its own string early or
    pass for another path. *)
Theorem escape_string_self_delimiting (s t rest1 rest2 : string) :
  escape_string s ++ dquote ++ rest1 = escape_string t ++ dquote ++ rest2 ->
  s = t /\ rest1 = rest2.
Proof. apply escaped_equal. Qed.

Lemma escape_string_self_delimiting_witness :
  "a/b" = "a/b" /\ "!" = "!".
Proof.
  apply (escape_string_self_delimiting "a/b" "a/b" "!" "!"). reflexivity.
Defined.

(** ** Bodies that carry request data *)

Lemma do_POST_response_unmatched (now p : string) :
  unmatched spec_POST_rules p = true ->
  do_POST_response now p = not_implemented p.
Proof.
  intros H. rewrite do_POST_response_table.
  apply first_match_unmatched, H.
Qed.

Lemma do_GET_response_unmatched (now p : string) :
  unmatched spec_GET_rules p = true -> do_GET_response now p = welcome_payload.
Proof.
  intros H. rewrite do_GET_refines_spec.
  apply (first_match_unmatched _ (fun _ => welcome_payload)), H.
Qed.

(** X3: the body of the POST fallback tells the path.  Two POST requests
    that no rule matches and that are answered with the same bytes had the
    same path, at whatever times they were made. *)
Theorem post_fallback_body_tells_path (now1 now2 p q : string) :
  unmatched spec_POST_rules p = true ->
  unmatched spec_POST_rules q = true ->
  wfile (handle POST now1 p) = wfile (handle POST now2 q) ->
  p = q.
Proof.
  intros Hp Hq H. rewrite !handle_wfile in H. cbn [response_of] in H.
  rewrite (do_POST_response_unmatched now1 p Hp) in H.
  rewrite (do_POST_response_unmatched now2 q Hq) in H.
  unfold json_dumps, not_implemented in H. cbn in H.
  injection H as H. rewrite !string_app_assoc in H.
  exact (proj1 (escaped_equal p q _ _ H)).
Qed.

Lemma post_fallback_body_tells_path_witness : "/unknown/path" = "/unknown/path".
Proof.
  apply (post_fallback_body_tells_path "2025-06-01T12:00:00"
           "2031-01-01T00:00:00" "/unknown/path" "/unknown/path");
    reflexivity.
Defined.

(** X4: the time read is in the bytes.  Two answers to GET /health, and
    two answers to POST /api/v1/statuses, are the same bytes only if the
    time strings read for them were the same. *)
Theorem timestamped_bodies_tell_time (now1 now2 : string) :
  (wfile (handle GET now1 "/health") = wfile (handle GET now2 "/health") ->
   now1 = now2) /\
  (wfile (handle POST now1 "/api/v1/statuses")
   = wfile (handle POST now2 "/api/v1/statuses") -> now1 = now2).
Proof.
  split; intros H; rewrite !handle_wfile in H;
    unfold json_dumps in H; cbn in H; injection H as H;
    rewrite !string_app_assoc in H;
    exact (proj1 (escaped_equal now1 now2 _ _ H)).
Qed.

Lemma timestamped_bodies_tell_time_witness :
  "2025-06-01T12:00:00" = "2025-06-01T12:00:00".
Proof.
  apply (proj1 (timestamped_bodies_tell_time "2025-06-01T12:00:00"
                  "2025-06-01T12:00:00")).
  reflexivity.
Defined.

(** ** Which answers the chains can give *)

(** A first-match table answers with its fallback when no rule matches and
    otherwise with the body of a rule of the table that matches. *)
Lemma first_match_cases (rules : list rule) (fb : string -> dict)
  (now p : string) :
  (unmatched rules p = true /\ first_match rules fb now p = fb p) \/
  (unmatched rules p = false /\
   exists r, In r rules /\ matches (rule_pred r) p = true /\
             first_match rules fb now p = rule_body r now).
Proof.
  induction rules as [|r rules IH]; [left; split; reflexivity|].
  unfold unmatched in *. cbn [first_match forallb].
  destruct (matches (rule_pred r) p) eqn:E; cbn [negb andb].
  - right. split; [reflexivity|]. exists r. repeat split; auto. now left.
  - destruct IH as [[U F]|[U [r' (I & M & F)]]]; [left | right]; split; auto.
    exists r'. repeat split; auto. now right.
Qed.

Lemma do_GET_response_cases (now p : string) :
  (unmatched spec_GET_rules p = true /\
   do_GET_response now p = welcome_payload) \/
  (unmatched spec_GET_rules p = false /\
   exists r, In r spec_GET_rules /\ matches (rule_pred r) p = true /\
             do_GET_response now p = rule_body r now).
Proof.
  rewrite do_GET_refines_spec.
  apply (first_match_cases spec_GET_rules (fun _ => welcome_payload)).
Qed.

Lemma do_POST_response_cases (now p : string) :
  (unmatched spec_POST_rules p = true /\
   do_POST_response now p = not_implemented p) \/
  (unmatched spec_POST_rules p = false /\
   exists r, In r spec_POST_rules /\ matches (rule_pred r) p = true /\
             do_POST_response now p = rule_body r now).
Proof. rewrite do_POST_response_table. apply first_match_cases. Qed.

(** A property of every body of a table, checked rule by rule. *)
Ltac each_rule :=
  match goal with
  | H : In ?r _ |- _ =>
      cbn [In spec_GET_rules spec_POST_rules] in H;
      repeat (destruct H as [<-|H]; [cbn [rule_body rule_pred] in * |]);
      try contradiction
  end.

(** X5: the fallbacks mark the unmatched paths and only them.  GET
    answers with the welcome payload exactly when no GET rule matches the
    path, and the keys of a POST answer are error and path exactly when no
    POST rule matches it: a matched route is never answered as not
    implemented. *)
Theorem fallback_iff_unmatched (now p : string) :
  (do_GET_response now p = welcome_payload
   <-> unmatched spec_GET_rules p = true) /\
  (keys (do_POST_response now p) = ["error"; "path"]
   <-> unmatched spec_POST_rules p = true).
Proof.
  split; split.
  - intros H. destruct (do_GET_response_cases now p)
      as [[U _]|[_ [r (I & _ & F)]]]; [exact U|].
    rewrite F in H. unfold welcome_payload in H.
    each_rule; discriminate H.
  - apply do_GET_response_unmatched.
  - intros H. destruct (do_POST_response_cases now p)
      as [[U _]|[_ [r (I & _ & F)]]]; [exact U|].
    rewrite F in H. each_rule; discriminate H.
  - intros H. now rewrite (do_POST_response_unmatched now p H).
Qed.

Lemma fallback_iff_unmatched_witness :
  unmatched spec_GET_rules "/api/v1/statuses" = true /\
  keys (do_POST_response "2025-06-01T12:00:00" "/health") = ["error"; "path"].
Proof.
  destruct (fallback_iff_unmatched "2025-06-01T12:00:00" "/api/v1/statuses")
    as [[Hget _] _].
  destruct (fallback_iff_unmatched "2025-06-01T12:00:00" "/health")
    as [_ [_ Hpost]].
  split; [apply Hget | apply Hpost]; reflexivity.
Defined.

(** X6: every answer is a JSON object with one to four members whose keys
    are all different, whatever the method, the path and the time. *)
Theorem response_keys_distinct (m : method) (now p : string) :
  NoDup (keys (response_of m now p)) /\
  1 <= List.length (keys (response_of m now p)) <= 4.
Proof.
  assert (K : forall ks : list string,
             NoDup ks -> 1 <= List.length ks <= 4 ->
             NoDup ks /\ 1 <= List.length ks <= 4) by auto.
  destruct m; cbn [response_of].
  - destruct (do_GET_response_cases now p)
      as [[_ F]|[_ [r (I & _ & F)]]]; rewrite F; [|each_rule];
      (apply K; [repeat (constructor; [cbn; intuition discriminate|]);
                 constructor | cbn; lia]).
  - destruct (do_POST_response_cases now p)
      as [[_ F]|[_ [r (I & _ & F)]]]; rewrite F; [|each_rule];
      (apply K; [repeat (constructor; [cbn; intuition discriminate|]);
                 constructor | cbn; lia]).
Qed.

(** ** Paths shorter than every literal *)

Lemma matches_short (pr : predicate) (p : string) :
  length p < length (pred_literal pr) -> matches pr p = false.
Proof.
  destruct pr as [lit|lit|lit]; cbn [matches pred_literal]; intros L.
  - apply String.eqb_neq. intros ->. lia.
  - destruct (startswith p lit) eqn:E; [|reflexivity].
    apply startswith_iff in E as [t ->]. rewrite length_app in L. lia.
  - unfold endswith.
    replace (length lit <=? length p)%nat with false; [reflexivity|].
    symmetry. apply Nat.leb_gt. exact L.
Qed.

Lemma unmatched_short (rules : list rule) (p : string) :
  Forall (fun r => length p < length (pred_literal (rule_pred r))) rules ->
  unmatched rules p = true.
Proof.
  intros H. induction H as [|r rules Hr H IH]; [reflexivity|].
  apply unmatched_cons. split; [apply matches_short, Hr | exact IH].
Qed.

(** X7: a path of fewer than seven characters, the empty path and the
    bare slash among them, is shorter than every literal of both chains:
    GET answers it with the welcome payload and POST with the error
    payload that repeats it. *)
Theorem short_paths_fall_back (now p : string) :
  length p < 7 ->
  do_GET_response now p = welcome_payload /\
  do_POST_response now p
  = [("error", JStr "Endpoint not implemented"); ("path", JStr p)].
Proof.
  intros L. split.
  - apply do_GET_response_unmatched, unmatched_short.
    repeat (apply Forall_cons; [cbn; lia|]). apply Forall_nil.
  - apply do_POST_response_unmatched, unmatched_short.
    repeat (apply Forall_cons; [cbn; lia|]). apply Forall_nil.
Qed.

Lemma short_paths_fall_back_witness :
  do_GET_response "2025-06-01T12:00:00" "/" = welcome_payload /\
  do_POST_response "2025-06-01T12:00:00" ""
  = [("error", JStr "Endpoint not implemented"); ("path", JStr "")].
Proof.
  split.
  - apply (short_paths_fall_back "2025-06-01T12:00:00" "/"). cbn. lia.
  - apply (short_paths_fall_back "2025-06-01T12:00:00" ""). cbn. lia.
Defined.

(** ** The two suffix rules the un- rules follow *)

(** X8: a POST to any path that ends with /favourite is answered with
    the favourite message and one that ends with /reblog with the reblog
    message, whatever comes before: no exact path and no earlier suffix
    rule takes such a path. *)
Theorem post_favourite_reblog (now pre : string) :
  do_POST_response now (pre ++ "/favourite")
  = [("message", JStr "Favourite successful")] /\
  do_POST_response now (pre ++ "/reblog")
  = [("message", JStr "Reblog successful")].
Proof.
  split; unfold do_POST_response; do 5 skip_exact.
  - skip_suffix "/follow". skip_suffix "/unfollow".
    rewrite endswith_app. reflexivity.
  - skip_suffix "/follow". skip_suffix "/unfollow". skip_suffix "/favourite".
    skip_suffix "/unfavourite". rewrite endswith_app. reflexivity.
Qed.

(** ** The frame of the body *)

Lemma join_cons (sep x : string) (xs : list string) :
  exists t, join sep (x :: xs) = x ++ t.
Proof.
  destruct xs as [|y xs]; cbn [join].
  - exists "". clear. induction x as [|c x IH]; cbn; [reflexivity|].
    now rewrite <- IH.
  - now exists (sep ++ join sep (y :: xs)).
Qed.

(** The text of a dict that is not empty opens with a brace, a new line
    indented by [indent] spaces and the quote of the first key, and closes
    with a new line and a brace. *)
Lemma dict_text_frame (indent : nat) (kv : string * json) (rest : dict) :
  exists mid,
    json_dumps indent (JDict (kv :: rest))
    = ("{" ++ newline_indent indent 1 ++ dquote) ++ mid
      ++ (newline_indent indent 0 ++ "}").
Proof.
  unfold json_dumps. cbn [iterencode map].
  destruct (join_cons ("," ++ newline_indent indent 1)
              (encode_basestring_ascii (fst kv) ++ ": "
               ++ iterencode indent 1 (snd kv))
              (map (fun kv0 => encode_basestring_ascii (fst kv0) ++ ": "
                               ++ iterencode indent 1 (snd kv0)) rest))
    as [t ->].
  exists (escape_string (fst kv) ++ dquote ++ ": "
          ++ iterencode indent 1 (snd kv) ++ t).
  unfold encode_basestring_ascii at 1.
  rewrite !string_app_assoc. reflexivity.
Qed.

Lemma response_of_nonempty (m : method) (now p : string) :
  response_of m now p <> [].
Proof.
  destruct m; cbn [response_of].
  - destruct (do_GET_response_cases now p)
      as [[_ F]|[_ [r (I & _ & F)]]]; rewrite F; [|each_rule]; discriminate.
  - destruct (do_POST_response_cases now p)
      as [[_ F]|[_ [r (I & _ & F)]]]; rewrite F; [|each_rule]; discriminate.
Qed.

(** X9: every body is pretty-printed as an object that is not empty: it
    begins with an opening brace, a line feed, two spaces and the quote of
    the first key, and it ends with a line feed and the closing brace,
    whatever the method, the path and the time. *)
Theorem body_frame (m : method) (now p : string) :
  startswith (wfile (handle m now p))
    ("{" ++ String "010" "  " ++ dquote) = true /\
  endswith (wfile (handle m now p)) (String "010" "}") = true.
Proof.
  rewrite handle_wfile.
  destruct (response_of m now p) as [|kv rest] eqn:E;
    [now apply response_of_nonempty in E|].
  destruct (dict_text_frame 2 kv rest) as [mid ->]. split.
  - apply (startswith_app ("{" ++ newline_indent 2 1 ++ dquote)).
  - rewrite <- (string_app_assoc _ mid).
    apply (endswith_app _ (newline_indent 2 0 ++ "}")).
Qed.

(** ** No rule is dead *)

(** X10: no rule of either chain is shadowed by an earlier one.  For each
    of the five GET rules and the eighteen POST rules, the request whose
    path is the rule's own literal matches the rule and is answered with
    that rule's body. *)
Theorem every_rule_reachable (now : string) (r : rule) :
  (In r spec_GET_rules ->
   matches (rule_pred r) (pred_literal (rule_pred r)) = true /\
   do_GET_response now (pred_literal (rule_pred r)) = rule_body r now) /\
  (In r spec_POST_rules ->
   matches (rule_pred r) (pred_literal (rule_pred r)) = true /\
   do_POST_response now (pred_literal (rule_pred r)) = rule_body r now).
Proof.
  split; intros I; each_rule; split; reflexivity.
Qed.

Lemma every_rule_reachable_witness :
  do_GET_response "2025-06-01T12:00:00" "/api/v1/search"
  = [("accounts", JList []); ("statuses", JList []); ("hashtags", JList [])]
  /\ do_POST_response "2025-06-01T12:00:00" "/api/v1/filters"
     = [("filters", JList [])].
Proof.
  split.
  - apply (every_rule_reachable "2025-06-01T12:00:00"
             (mkRule (Prefix "/api/v1/search")
                (fun _ => [("accounts", JList []); ("statuses", JList []);
                           ("hashtags", JList [])]))).
    cbn. tauto.
  - apply (every_rule_reachable "2025-06-01T12:00:00"
             (mkRule (Exact "/api/v1/filters")
                (fun _ => [("filters", JList [])]))).
    cbn. tauto.
Defined.
